(** * release_pipeline.py: the credit-risk training pipeline

    A shallow embedding of [src/release_pipeline.py].  The script builds
    SageMaker configuration objects (parameters, a processor, an estimator,
    steps) and is written to go on to a condition step, a register step, a
    pipeline, and to publish and start that pipeline.

    - SDK objects are records; the two objects that the script shares
      between steps (the processor and the estimator, the latter also
      mutated by [set_hyperparameters]) live in a heap and are held by
      reference.
    - Every call that leaves the script (session, role, bucket, image URI
      lookup, upsert, start) goes through an [Sdk] record of responses and
      is logged; each may raise.
    - A call into the SDK that the SDK does not accept raises as Python
      does: [AttributeError] for an attribute the class does not have,
      [TypeError] for a constructor called without a required argument.
    - The script itself is a program in a small exception/state monad; it
      runs statement by statement and stops at the first exception. *)

From Stdlib Require Import Floats.
From stdpp Require Import base option list strings gmap.

Set Warnings "-register-all".

(** ** Configuration records *)

(** [ParameterString] / [ParameterFloat] of [sagemaker.workflow.parameters]. *)
Inductive Param : Type :=
| ParameterString (name : string) (default_value : string)
| ParameterFloat (name : string) (default_value : float).

Definition parameter_name (p : Param) : string :=
  match p with
  | ParameterString n _ => n
  | ParameterFloat n _ => n
  end.

(** [PropertyFile(name=, output_name=, path=)]. *)
Record PropertyFile : Type := {
  pf_name : string;
  pf_output_name : string;
  pf_path : string
}.

(** Values that are only known when the pipeline runs.  A step's
    [properties] object records the name of the step it belongs to, so a
    reference into another step is a step name plus a path. *)
Inductive PipelineVariable : Type :=
| OfParameter (p : Param)
  (* step.properties.ProcessingOutputConfig.Outputs[output_name].S3Output.S3Uri *)
| ProcessingOutputS3Uri (step_name : string) (output_name : string)
  (* step.properties.ModelArtifacts.S3ModelArtifacts *)
| S3ModelArtifacts (step_name : string).

Record ProcessingInput : Type := {
  pi_source : PipelineVariable;
  pi_destination : string
}.

Record ProcessingOutput : Type := {
  po_output_name : string;
  po_source : string;
  po_destination : string
}.

Record ScriptProcessor : Type := {
  sp_image_uri : string;
  sp_command : list string;
  sp_instance_type : string;
  sp_instance_count : Z;
  sp_role : string
}.

Inductive HyperValue : Type :=
| HStr (s : string)
| HInt (n : Z)
| HFloat (x : float).

Record Estimator : Type := {
  est_image_uri : string;
  est_role : string;
  est_instance_count : Z;
  est_instance_type : string;
  est_output_path : string;
  est_hyperparameters : gmap string HyperValue
}.

(** Heap objects and references to them. *)
Inductive Object : Type :=
| ObjScriptProcessor (p : ScriptProcessor)
| ObjEstimator (e : Estimator).

Definition Ref : Type := nat.
Definition Heap : Type := list Object.

(** The binary comparison classes of [sagemaker.workflow.conditions]. *)
Inductive ConditionType : Type :=
| Equals
| GreaterThan
| GreaterThanOrEqualTo
| LessThan
| LessThanOrEqualTo.

Record Condition : Type := {
  cond_type : ConditionType;
  cond_left : PipelineVariable;
  cond_right : PipelineVariable
}.

Definition ConditionGreaterThanOrEqualTo (left right : PipelineVariable)
  : Condition :=
  {| cond_type := GreaterThanOrEqualTo; cond_left := left; cond_right := right |}.

Record ProcessingStep : Type := {
  ps_name : string;
  ps_processor : Ref;
  ps_inputs : list ProcessingInput;
  ps_outputs : list ProcessingOutput;
  ps_code : string;
  ps_property_files : list PropertyFile
}.

Record TrainingStep : Type := {
  ts_name : string;
  ts_estimator : Ref;
  ts_inputs : list (string * PipelineVariable)
}.

Record RegisterModel : Type := {
  rm_name : string;
  rm_content_types : list string;
  rm_response_types : list string;
  rm_estimator : Ref;
  rm_model_package_group_name : string;
  rm_approval_status : string
}.

(** What may stand in a pipeline's step list.  A condition step carries
    the two lists of steps it chooses between. *)
Inductive Step : Type :=
| Processing (s : ProcessingStep)
| Training (s : TrainingStep)
| ConditionStep (name : string) (conditions : list Condition)
    (if_steps else_steps : list Step)
| Registration (s : RegisterModel).

Record Pipeline : Type := {
  pl_name : string;
  pl_parameters : list Param;
  pl_steps : list Step
}.

Definition step_name (s : Step) : string :=
  match s with
  | Processing p => ps_name p
  | Training t => ts_name t
  | ConditionStep n _ _ _ => n
  | Registration r => rm_name r
  end.

(** ** The world outside the script *)

Definition Exception : Type := string.

Record Session : Type := {
  default_bucket : Exception + string;
  boto_region_name : string
}.

Record Sdk : Type := {
  sdk_PipelineSession : Exception + Session;
  sdk_get_execution_role : Exception + string;
  sdk_image_uris_retrieve : string → string → string → Exception + string;
  sdk_upsert : Heap → Pipeline → string → Exception + ();
  sdk_start : Heap → Pipeline → Exception + ()
}.

Inductive Call : Type :=
| CallPipelineSession
| CallGetExecutionRole
| CallDefaultBucket
| CallImageUrisRetrieve (framework region version : string)
| CallUpsert (p : Pipeline) (role_arn : string)
| CallStart (p : Pipeline).

Record State : Type := {
  heap : Heap;
  calls : list Call
}.

Definition initial_state : State := {| heap := []; calls := [] |}.

(** ** The script monad: SDK responses in, exception or value out, with
    the heap and the call log threaded through (and kept on failure). *)

Definition M (A : Type) : Type := Sdk → State → (Exception + A) * State.

Global Instance M_ret : MRet M := λ A x _ st, (inr x, st).

Global Instance M_bind : MBind M := λ A B f m sdk st,
  match m sdk st with
  | (inl e, st') => (inl e, st')
  | (inr a, st') => f a sdk st'
  end.

Definition log (c : Call) (st : State) : State :=
  {| heap := heap st; calls := calls st ++ [c] |}.

Definition raise {A : Type} (e : Exception) : M A := λ _ st, (inl e, st).

(** An outside call: log it, then return or raise what the SDK answers. *)
Definition call {A : Type} (c : Call) (answer : Sdk → State → Exception + A)
  : M A :=
  λ sdk st, (answer sdk st, log c st).

(** Constructing a shared object allocates it at the end of the heap. *)
Definition new (o : Object) : M Ref :=
  λ _ st, (inr (length (heap st)),
           {| heap := heap st ++ [o]; calls := calls st |}).

(** [estimator.set_hyperparameters(k1=v1, ...)]: updates the estimator's
    hyperparameter dict in place. *)
Definition update_hyperparameters (kwargs : list (string * HyperValue))
    (e : Estimator) : Estimator :=
  {| est_image_uri := est_image_uri e;
     est_role := est_role e;
     est_instance_count := est_instance_count e;
     est_instance_type := est_instance_type e;
     est_output_path := est_output_path e;
     est_hyperparameters :=
       foldl (λ m kv, <[kv.1 := kv.2]> m) (est_hyperparameters e) kwargs |}.

Definition set_hyperparameters (r : Ref) (kwargs : list (string * HyperValue))
  : M () :=
  λ _ st,
    match heap st !! r with
    | Some (ObjEstimator e) =>
        (inr (),
         {| heap := <[r := ObjEstimator (update_hyperparameters kwargs e)]> (heap st);
            calls := calls st |})
    | _ => (inl "AttributeError", st)
    end.

(** ** The script, one definition per assignment *)

(** Lines 21-29. *)
Definition input_data (bucket : string) : Param :=
  ParameterString "InputDataUrl"
    ("s3://" +:+ bucket +:+ "/credit-risk/raw/data.csv").

Definition accuracy_threshold (default_value : float) : Param :=
  ParameterFloat "AccuracyThreshold" default_value.

(** Lines 34-40. *)
Definition processor (image_uri role : string) : ScriptProcessor :=
  {| sp_image_uri := image_uri;
     sp_command := ["python3"];
     sp_instance_type := "ml.m5.large";
     sp_instance_count := 1;
     sp_role := role |}.

(** Lines 42-64. *)
Definition processing_step (processor : Ref) (input_data : Param)
    (bucket : string) : ProcessingStep :=
  {| ps_name := "PreprocessData";
     ps_processor := processor;
     ps_inputs :=
       [ {| pi_source := OfParameter input_data;
            pi_destination := "/opt/ml/processing/input" |} ];
     ps_outputs :=
       [ {| po_output_name := "train";
            po_source := "/opt/ml/processing/train";
            po_destination := "s3://" +:+ bucket +:+ "/credit-risk/processed/train" |};
         {| po_output_name := "test";
            po_source := "/opt/ml/processing/test";
            po_destination := "s3://" +:+ bucket +:+ "/credit-risk/processed/test" |} ];
     ps_code := "scripts/preprocess.py";
     ps_property_files := [] |}.

(** Lines 69-75; the hyperparameter dict starts empty. *)
Definition estimator (image_uri role bucket : string) : Estimator :=
  {| est_image_uri := image_uri;
     est_role := role;
     est_instance_count := 1;
     est_instance_type := "ml.m5.large";
     est_output_path := "s3://" +:+ bucket +:+ "/credit-risk/models";
     est_hyperparameters := ∅ |}.

(** Lines 77-82; [eta=0.2] is the binary64 value nearest to 0.2. *)
Definition hyperparameters : list (string * HyperValue) :=
  [ ("objective", HStr "binary:logistic");
    ("num_round", HInt 200);
    ("max_depth", HInt 5);
    ("eta", HFloat 0x1.999999999999ap-3%float) ].

(** [step.properties.ProcessingOutputConfig.Outputs[name].S3Output.S3Uri]
    and [step.properties.ModelArtifacts.S3ModelArtifacts]: built from the
    step's name alone, whether or not the step declares such an output. *)
Definition Outputs_S3Uri (s : ProcessingStep) (output_name : string)
  : PipelineVariable :=
  ProcessingOutputS3Uri (ps_name s) output_name.

Definition ModelArtifacts_S3ModelArtifacts (s : TrainingStep)
  : PipelineVariable :=
  S3ModelArtifacts (ts_name s).

(** Lines 84-92. *)
Definition training_step (estimator : Ref) (processing_step : ProcessingStep)
  : TrainingStep :=
  {| ts_name := "TrainModel";
     ts_estimator := estimator;
     ts_inputs := [ ("train", Outputs_S3Uri processing_step "train") ] |}.

(** Lines 97-101. *)
Definition evaluation_report : PropertyFile :=
  {| pf_name := "EvaluationReport";
     pf_output_name := "evaluation";
     pf_path := "evaluation.json" |}.

(** Lines 103-127. *)
Definition evaluation_step (processor : Ref) (training_step : TrainingStep)
    (processing_step : ProcessingStep) (bucket : string) : ProcessingStep :=
  {| ps_name := "EvaluateModel";
     ps_processor := processor;
     ps_inputs :=
       [ {| pi_source := ModelArtifacts_S3ModelArtifacts training_step;
            pi_destination := "/opt/ml/processing/model" |};
         {| pi_source := Outputs_S3Uri processing_step "test";
            pi_destination := "/opt/ml/processing/test" |} ];
     ps_outputs :=
       [ {| po_output_name := "evaluation";
            po_source := "/opt/ml/processing/evaluation";
            po_destination := "s3://" +:+ bucket +:+ "/credit-risk/evaluation" |} ];
     ps_code := "scripts/evaluate.py";
     ps_property_files := [evaluation_report] |}.

(** Line 136, [evaluation_report.prop(json_path)].  The class
    [sagemaker.workflow.properties.PropertyFile] has the attributes [name],
    [output_name], [path] and [expr] and no attribute [prop], so the
    attribute lookup raises before anything is called. *)
Definition PropertyFile_prop (file : PropertyFile) (json_path : string)
  : M PipelineVariable :=
  raise "AttributeError".

(** [RegisterModel(name, content_types, response_types, ..., estimator=None,
    ...)]: [content_types] and [response_types] have no default, and a call
    that leaves one out raises. *)
Definition RegisterModel_init (name : string)
    (content_types response_types : option (list string)) (estimator : Ref)
    (model_package_group_name approval_status : string) : M RegisterModel :=
  match content_types, response_types with
  | Some cts, Some rts =>
      mret {| rm_name := name;
              rm_content_types := cts;
              rm_response_types := rts;
              rm_estimator := estimator;
              rm_model_package_group_name := model_package_group_name;
              rm_approval_status := approval_status |}
  | _, _ => raise "TypeError"
  end.

(** Lines 157-167. *)
Definition pipeline (input_data accuracy_threshold : Param)
    (processing_step : ProcessingStep) (training_step : TrainingStep)
    (evaluation_step : ProcessingStep) (cond_step : Step)
    (register_step : RegisterModel) : Pipeline :=
  {| pl_name := "CreditRiskPipeline";
     pl_parameters := [input_data; accuracy_threshold];
     pl_steps :=
       [ Processing processing_step;
         Training training_step;
         Processing evaluation_step;
         cond_step;
         Registration register_step ] |}.

(** The module's global names once line 127 has run. *)
Record Globals : Type := {
  g_role : string;
  g_bucket : string;
  g_region : string;
  g_input_data : Param;
  g_accuracy_threshold : Param;
  g_processor : Ref;
  g_processing_step : ProcessingStep;
  g_estimator : Ref;
  g_training_step : TrainingStep;
  g_evaluation_report : PropertyFile;
  g_evaluation_step : ProcessingStep
}.

(** ** The script as a program *)

Definition PipelineSession : M Session :=
  call CallPipelineSession (λ sdk _, sdk_PipelineSession sdk).

Definition get_execution_role : M string :=
  call CallGetExecutionRole (λ sdk _, sdk_get_execution_role sdk).

Definition session_default_bucket (session : Session) : M string :=
  call CallDefaultBucket (λ _ _, default_bucket session).

Definition image_uris_retrieve (framework region version : string) : M string :=
  call (CallImageUrisRetrieve framework region version)
       (λ sdk _, sdk_image_uris_retrieve sdk framework region version).

Definition upsert (p : Pipeline) (role_arn : string) : M () :=
  call (CallUpsert p role_arn) (λ sdk st, sdk_upsert sdk (heap st) p role_arn).

Definition start (p : Pipeline) : M () :=
  call (CallStart p) (λ sdk st, sdk_start sdk (heap st) p).

(** Lines 13-127, with the literal of line 28 as an argument. *)
Definition build_with (threshold : float) : M Globals :=
  session ← PipelineSession;
  role ← get_execution_role;
  bucket ← session_default_bucket session;
  let region := boto_region_name session in
  let input_data := input_data bucket in
  let accuracy_threshold := accuracy_threshold threshold in
  sklearn ← image_uris_retrieve "sklearn" region "1.0-1";
  processor ← new (ObjScriptProcessor (processor sklearn role));
  let processing_step := processing_step processor input_data bucket in
  xgboost ← image_uris_retrieve "xgboost" region "1.5-1";
  estimator ← new (ObjEstimator (estimator xgboost role bucket));
  set_hyperparameters estimator hyperparameters;;
  let training_step := training_step estimator processing_step in
  let evaluation_step :=
    evaluation_step processor training_step processing_step bucket in
  mret {| g_role := role;
          g_bucket := bucket;
          g_region := region;
          g_input_data := input_data;
          g_accuracy_threshold := accuracy_threshold;
          g_processor := processor;
          g_processing_step := processing_step;
          g_estimator := estimator;
          g_training_step := training_step;
          g_evaluation_report := evaluation_report;
          g_evaluation_step := evaluation_step |}.

(** Lines 132-170.  Python evaluates the arguments of a call before the
    call, so line 136 runs before [ConditionGreaterThanOrEqualTo] and
    [ConditionStep] are entered. *)
Definition gate_and_publish (g : Globals) : M () :=
  left ← PropertyFile_prop (g_evaluation_report g) "metrics.accuracy";
  let cond_step :=
    ConditionStep "AccuracyCheck"
      [ ConditionGreaterThanOrEqualTo left (OfParameter (g_accuracy_threshold g)) ]
      []
      [] in
  register_step ←
    RegisterModel_init "RegisterModel" None None (g_estimator g)
      "CreditRiskModelGroup" "PendingManualApproval";
  let pipeline :=
    pipeline (g_input_data g) (g_accuracy_threshold g) (g_processing_step g)
             (g_training_step g) (g_evaluation_step g) cond_step register_step in
  upsert pipeline (g_role g);;
  start pipeline.

(** Lines 13-170. *)
Definition script_with (threshold : float) : M () :=
  g ← build_with threshold;
  gate_and_publish g.

(** The script as written: the threshold's default is 0.75. *)
Definition build : M Globals := build_with 0.75%float.
Definition script : M () := script_with 0.75%float.

(** A world in which every call succeeds. *)
Definition demo_session : Session :=
  {| default_bucket := inr "sagemaker-us-east-1-111122223333";
     boto_region_name := "us-east-1" |}.

Definition demo_sdk : Sdk :=
  {| sdk_PipelineSession := inr demo_session;
     sdk_get_execution_role := inr "arn:aws:iam::111122223333:role/SageMakerRole";
     sdk_image_uris_retrieve := λ framework region version,
       inr (framework +:+ ":" +:+ version +:+ "@" +:+ region);
     sdk_upsert := λ _ _ _, inr ();
     sdk_start := λ _ _, inr () |}.

(** ** Running lines 13-127 *)

(** The globals as a function of what the environment answered; the
    processor is the first object allocated and the estimator the second. *)
Definition globals_of (role bucket region : string) (threshold : float)
  : Globals :=
  let input_data := input_data bucket in
  let processing_step := processing_step 0 input_data bucket in
  let training_step := training_step 1 processing_step in
  {| g_role := role;
     g_bucket := bucket;
     g_region := region;
     g_input_data := input_data;
     g_accuracy_threshold := accuracy_threshold threshold;
     g_processor := 0;
     g_processing_step := processing_step;
     g_estimator := 1;
     g_training_step := training_step;
     g_evaluation_report := evaluation_report;
     g_evaluation_step :=
       evaluation_step 0 training_step processing_step bucket |}.

Definition heap_of (role bucket sklearn xgboost : string) : Heap :=
  [ ObjScriptProcessor (processor sklearn role);
    ObjEstimator
      (update_hyperparameters hyperparameters (estimator xgboost role bucket)) ].

Definition calls_of (region : string) : list Call :=
  [ CallPipelineSession;
    CallGetExecutionRole;
    CallDefaultBucket;
    CallImageUrisRetrieve "sklearn" region "1.0-1";
    CallImageUrisRetrieve "xgboost" region "1.5-1" ].

(** What the environment must answer for lines 13-127 to finish. *)
Record Answers (sdk : Sdk) : Type := {
  a_session : Session;
  a_role : string;
  a_bucket : string;
  a_sklearn : string;
  a_xgboost : string;
  a_session_ok : sdk_PipelineSession sdk = inr a_session;
  a_role_ok : sdk_get_execution_role sdk = inr a_role;
  a_bucket_ok : default_bucket a_session = inr a_bucket;
  a_sklearn_ok :
    sdk_image_uris_retrieve sdk "sklearn" (boto_region_name a_session) "1.0-1"
    = inr a_sklearn;
  a_xgboost_ok :
    sdk_image_uris_retrieve sdk "xgboost" (boto_region_name a_session) "1.5-1"
    = inr a_xgboost
}.
Arguments a_session {sdk}.
Arguments a_role {sdk}.
Arguments a_bucket {sdk}.
Arguments a_sklearn {sdk}.
Arguments a_xgboost {sdk}.

Definition a_region {sdk : Sdk} (a : Answers sdk) : string :=
  boto_region_name (a_session a).

(** ** Reading what has been built *)

(** The step objects that exist once line 127 has run, in the order the
    script built them, and the parameter objects. *)
Definition built_steps (g : Globals) : list Step :=
  [ Processing (g_processing_step g);
    Training (g_training_step g);
    Processing (g_evaluation_step g) ].

Definition built_parameters (g : Globals) : list Param :=
  [ g_input_data g; g_accuracy_threshold g ].

Definition output_names (s : Step) : list string :=
  match s with
  | Processing p => po_output_name <$> ps_outputs p
  | _ => []
  end.

Definition outputs_of (s : Step) : list ProcessingOutput :=
  match s with
  | Processing p => ps_outputs p
  | _ => []
  end.

Definition property_files (s : Step) : list PropertyFile :=
  match s with
  | Processing p => ps_property_files p
  | _ => []
  end.

(** The run-time values a step refers to: its inputs, or the operands of
    its conditions. *)
Definition references (s : Step) : list PipelineVariable :=
  match s with
  | Processing p => pi_source <$> ps_inputs p
  | Training t => snd <$> ts_inputs t
  | ConditionStep _ cs _ _ => cs ≫= λ c, [cond_left c; cond_right c]
  | Registration _ => []
  end.

Global Instance PropertyFile_eq_dec : EqDecision PropertyFile.
Proof. solve_decision. Defined.

Definition is_training (s : Step) : bool :=
  match s with Training _ => true | _ => false end.

(** [resolves parameters steps v]: the thing [v] points at is declared.
    - a parameter must be one of the parameters (by name);
    - an output URI of step [n] needs a step named [n] declaring that output;
    - model artifacts of step [n] need a training step named [n]. *)
Definition resolves (parameters : list Param) (steps : list Step)
    (v : PipelineVariable) : bool :=
  match v with
  | OfParameter q =>
      bool_decide (parameter_name q ∈ parameter_name <$> parameters)
  | ProcessingOutputS3Uri n out =>
      existsb (λ s, bool_decide (step_name s = n) &&
                    bool_decide (out ∈ output_names s)) steps
  | S3ModelArtifacts n =>
      existsb (λ s, bool_decide (step_name s = n) && is_training s) steps
  end.

Definition no_dangling_references (parameters : list Param)
    (steps : list Step) : bool :=
  forallb (resolves parameters steps) (steps ≫= references).

(** A property file is bound to a step that lists it and declares the
    output channel the file is read from. *)
Definition property_file_bound (f : PropertyFile) (s : Step) : bool :=
  bool_decide (f ∈ property_files s) &&
  bool_decide (pf_output_name f ∈ output_names s).

(** The calls that control the remote pipeline: publish and start. *)
Definition is_control (c : Call) : bool :=
  match c with
  | CallUpsert _ _ | CallStart _ => true
  | _ => false
  end.

Definition control_calls (cs : list Call) : list Call :=
  List.filter is_control cs.



Definition is_processor (o : Object) : bool :=
  match o with ObjScriptProcessor _ => true | _ => false end.

(** The estimator a step trains with or registers from. *)
Definition estimator_of (s : Step) : option Ref :=
  match s with
  | Training t => Some (ts_estimator t)
  | Registration r => Some (rm_estimator r)
  | _ => None
  end.

Definition estimator_users (r : Ref) (steps : list Step) : list Step :=
  List.filter (λ s, bool_decide (estimator_of s = Some r)) steps.

(** A step's [processor=] must be a processor object and its
    [estimator=] an estimator object. *)
Definition ref_ok (h : Heap) (s : Step) : bool :=
  match s with
  | Processing p =>
      match h !! ps_processor p with
      | Some (ObjScriptProcessor _) => true
      | _ => false
      end
  | Training t =>
      match h !! ts_estimator t with
      | Some (ObjEstimator _) => true
      | _ => false
      end
  | Registration r =>
      match h !! rm_estimator r with
      | Some (ObjEstimator _) => true
      | _ => false
      end
  | ConditionStep _ _ _ _ => true
  end.

(** What the two kinds of compute object have in common. *)
Definition object_role (o : Object) : string :=
  match o with
  | ObjScriptProcessor p => sp_role p
  | ObjEstimator e => est_role e
  end.

Definition object_instance_type (o : Object) : string :=
  match o with
  | ObjScriptProcessor p => sp_instance_type p
  | ObjEstimator e => est_instance_type e
  end.

Definition object_instance_count (o : Object) : Z :=
  match o with
  | ObjScriptProcessor p => sp_instance_count p
  | ObjEstimator e => est_instance_count e
  end.

Definition object_image_uri (o : Object) : string :=
  match o with
  | ObjScriptProcessor p => sp_image_uri p
  | ObjEstimator e => est_image_uri e
  end.

(** The object-storage URIs written out so far: defaults of string
    parameters, destinations of processing outputs, and output paths of
    estimators. *)
Definition parameter_uris (q : Param) : list string :=
  match q with
  | ParameterString _ d => [d]
  | ParameterFloat _ _ => []
  end.

Definition step_uris (s : Step) : list string :=
  po_destination <$> outputs_of s.

Definition object_uris (o : Object) : list string :=
  match o with
  | ObjEstimator e => [est_output_path e]
  | ObjScriptProcessor _ => []
  end.

Definition storage_uris (h : Heap) (parameters : list Param)
    (steps : list Step) : list string :=
  (parameters ≫= parameter_uris) ++ (steps ≫= step_uris) ++ (h ≫= object_uris).

Definition project_prefix (bucket : string) : string :=
  "s3://" +:+ bucket +:+ "/credit-risk/".

(** Paths inside the container: where a step's inputs are mounted and
    where its outputs are collected from. *)
Definition input_paths (s : Step) : list string :=
  match s with
  | Processing p => pi_destination <$> ps_inputs p
  | _ => []
  end.

Definition output_paths (s : Step) : list string :=
  po_source <$> outputs_of s.


(** Worlds in which a call is refused. *)
Definition demo_sdk_upsert_fails : Sdk :=
  {| sdk_PipelineSession := sdk_PipelineSession demo_sdk;
     sdk_get_execution_role := sdk_get_execution_role demo_sdk;
     sdk_image_uris_retrieve := sdk_image_uris_retrieve demo_sdk;
     sdk_upsert := λ _ _ _, inl "AccessDeniedException";
     sdk_start := sdk_start demo_sdk |}.

Definition demo_sdk_no_credentials : Sdk :=
  {| sdk_PipelineSession := inl "NoCredentialsError";
     sdk_get_execution_role := sdk_get_execution_role demo_sdk;
     sdk_image_uris_retrieve := sdk_image_uris_retrieve demo_sdk;
     sdk_upsert := sdk_upsert demo_sdk;
     sdk_start := sdk_start demo_sdk |}.

Definition demo_sdk_no_xgboost : Sdk :=
  {| sdk_PipelineSession := sdk_PipelineSession demo_sdk;
     sdk_get_execution_role := sdk_get_execution_role demo_sdk;
     sdk_image_uris_retrieve := λ framework region version,
       if bool_decide (framework = "xgboost")
       then inl "ValueError"
       else sdk_image_uris_retrieve demo_sdk framework region version;
     sdk_upsert := sdk_upsert demo_sdk;
     sdk_start := sdk_start demo_sdk |}.

Definition demo_role : string := "arn:aws:iam::111122223333:role/SageMakerRole".
Definition demo_bucket : string := "sagemaker-us-east-1-111122223333".
Definition demo_region : string := "us-east-1".

Definition demo_globals (threshold : float) : Globals :=
  globals_of demo_role demo_bucket demo_region threshold.

Definition demo_state : State :=
  {| heap := heap_of demo_role demo_bucket "sklearn:1.0-1@us-east-1"
                     "xgboost:1.5-1@us-east-1";
     calls := calls_of demo_region |}.

(** * Properties *)

(** ** Running the script *)

Ltac run_step :=
  unfold build_with, PipelineSession, get_execution_role,
    session_default_bucket, image_uris_retrieve, new, set_hyperparameters,
    call, mbind, mret, M_bind, M_ret; cbn [fst snd heap calls log].

(** If the environment answers, lines 13-127 return. *)
Lemma build_with_run (t : float) (sdk : Sdk) (a : Answers sdk) :
  build_with t sdk initial_state =
  (inr (globals_of (a_role a) (a_bucket a) (a_region a) t),
   {| heap := heap_of (a_role a) (a_bucket a) (a_sklearn a) (a_xgboost a);
      calls := calls_of (a_region a) |}).
Proof.
  destruct a as [session role bucket sklearn xgboost Hs Hr Hb Hk Hx].
  unfold a_region; cbn [a_session a_role a_bucket a_sklearn a_xgboost].
  run_step.
  rewrite Hs, Hr, Hb; cbn. rewrite Hk; cbn. rewrite Hx; cbn.
  reflexivity.
Qed.

(** If lines 13-127 return, the environment answered. *)
Lemma build_with_inv (t : float) (sdk : Sdk) (g : Globals) (st : State) :
  build_with t sdk initial_state = (inr g, st) →
  ∃ a : Answers sdk,
    g = globals_of (a_role a) (a_bucket a) (a_region a) t ∧
    st = {| heap := heap_of (a_role a) (a_bucket a) (a_sklearn a) (a_xgboost a);
            calls := calls_of (a_region a) |}.
Proof.
  intros Hrun.
  destruct (sdk_PipelineSession sdk) as [e|session] eqn:Hs;
    [revert Hrun; run_step; rewrite Hs; discriminate|].
  destruct (sdk_get_execution_role sdk) as [e|role] eqn:Hr;
    [revert Hrun; run_step; rewrite Hs, Hr; discriminate|].
  destruct (default_bucket session) as [e|bucket] eqn:Hb;
    [revert Hrun; run_step; rewrite Hs, Hr, Hb; discriminate|].
  destruct (sdk_image_uris_retrieve sdk "sklearn" (boto_region_name session) "1.0-1")
    as [e|sklearn] eqn:Hk;
    [revert Hrun; run_step; rewrite Hs, Hr, Hb; cbn; rewrite Hk; discriminate|].
  destruct (sdk_image_uris_retrieve sdk "xgboost" (boto_region_name session) "1.5-1")
    as [e|xgboost] eqn:Hx;
    [revert Hrun; run_step; rewrite Hs, Hr, Hb; cbn; rewrite Hk; cbn; rewrite Hx;
     discriminate|].
  set (a := Build_Answers sdk session role bucket sklearn xgboost Hs Hr Hb Hk Hx).
  rewrite (build_with_run t sdk a) in Hrun.
  exists a. by inversion Hrun.
Qed.

Lemma demo_run (t : float) :
  build_with t demo_sdk initial_state = (inr (demo_globals t), demo_state).
Proof. reflexivity. Qed.

Lemma run_bind {A B : Type} (m : M A) (f : A → M B) (sdk : Sdk) (st : State) :
  (m ≫= f) sdk st =
  match m sdk st with
  | (inl e, st') => (inl e, st')
  | (inr a, st') => f a sdk st'
  end.
Proof. reflexivity. Qed.

(** Lines 132-170 stop at line 136, whatever has been built, and leave
    the state as it was. *)
Lemma gate_and_publish_raises (g : Globals) (sdk : Sdk) (st : State) :
  gate_and_publish g sdk st = (inl "AttributeError", st).
Proof. reflexivity. Qed.

(** The whole script: what lines 13-127 raise, or else the
    [AttributeError] of line 136 in the state line 127 left. *)
Lemma script_with_run (t : float) (sdk : Sdk) :
  script_with t sdk initial_state =
  match build_with t sdk initial_state with
  | (inl e, st) => (inl e, st)
  | (inr _, st) => (inl "AttributeError", st)
  end.
Proof.
  unfold script_with. rewrite run_bind.
  by destruct (build_with t sdk initial_state) as [[e|g] st].
Qed.

(** Lines 13-127 never touch the remote pipeline, whether they finish or
    raise on the way. *)
Lemma build_no_control (t : float) (sdk : Sdk) :
  control_calls (calls (build_with t sdk initial_state).2) = [].
Proof.
  run_step.
  destruct (sdk_PipelineSession sdk) as [e|session]; [reflexivity|].
  destruct (sdk_get_execution_role sdk) as [e|role]; [reflexivity|].
  destruct (default_bucket session) as [e|bucket]; [reflexivity|]; cbn.
  destruct (sdk_image_uris_retrieve sdk "sklearn" _ "1.0-1") as [e|sklearn];
    [reflexivity|]; cbn.
  destruct (sdk_image_uris_retrieve sdk "xgboost" _ "1.5-1") as [e|xgboost];
    reflexivity.
Qed.

(** ** Strings *)

Lemma append_assoc (a b c : string) : (a +:+ b) +:+ c = a +:+ (b +:+ c).
Proof.
  induction a as [|x a IH]; [reflexivity|].
  change (String x ((a +:+ b) +:+ c) = String x (a +:+ (b +:+ c))).
  by rewrite IH.
Qed.

Lemma prefix_append (a b : string) : String.prefix a (a +:+ b) = true.
Proof.
  induction a as [|x a IH].
  - by destruct b.
  - change (String.prefix (String x a) (String x (a +:+ b)) = true).
    simpl. destruct (Ascii.ascii_dec x x); [exact IH | congruence].
Qed.

Lemma under_project_prefix (bucket rest : string) :
  "s3://" +:+ bucket +:+ "/credit-risk/" +:+ rest
  = project_prefix bucket +:+ rest.
Proof.
  unfold project_prefix. by rewrite !append_assoc.
Qed.


Lemma storage_uris_of (t : float) (role bucket region sklearn xgboost : string) :
  let g := globals_of role bucket region t in
  storage_uris (heap_of role bucket sklearn xgboost)
               (built_parameters g) (built_steps g)
  = (λ rest, project_prefix bucket +:+ rest) <$>
      [ "raw/data.csv"; "processed/train"; "processed/test"; "evaluation";
        "models" ].
Proof.
  cbv zeta. cbn [fmap list_fmap]. rewrite <- !under_project_prefix. reflexivity.
Qed.

(** ** Where the script stops *)

(** C1 (the script departs from it): the specification has the register
    step reached through a branch of AccuracyCheck.  The script builds the
    preprocessing, training and evaluation steps and then stops at line
    136 with [AttributeError], raised while the first operand of the gate's
    condition is evaluated: no condition step, no register step and no
    pipeline come to exist, and nothing is published or started. *)
Theorem script_stops_before_gate :
  build demo_sdk initial_state = (inr (demo_globals 0.75), demo_state) ∧
  PropertyFile_prop (g_evaluation_report (demo_globals 0.75)) "metrics.accuracy"
                    demo_sdk demo_state
  = (inl "AttributeError", demo_state) ∧
  script demo_sdk initial_state = (inl "AttributeError", demo_state) ∧
  length (heap demo_state) = 2 ∧
  control_calls (calls demo_state) = [].
Proof. repeat split; reflexivity. Qed.

(** C3 (the script departs from it): the two parameters are built as
    specified and three of the five steps are built, in the specified
    order, but the script then stops at line 136 in the state line 127
    left; lines 157-167, which would aggregate them into the pipeline
    record, are not reached. *)
Theorem pipeline_record_not_reached (sdk : Sdk) (g : Globals) (st : State) :
  build sdk initial_state = (inr g, st) →
  built_parameters g =
    [ ParameterString "InputDataUrl"
        ("s3://" +:+ g_bucket g +:+ "/credit-risk/raw/data.csv");
      ParameterFloat "AccuracyThreshold" 0.75%float ] ∧
  step_name <$> built_steps g = [ "PreprocessData"; "TrainModel"; "EvaluateModel" ] ∧
  script sdk initial_state = (inl "AttributeError", st).
Proof.
  intros Hrun. unfold script. rewrite script_with_run.
  unfold build in Hrun. rewrite Hrun.
  apply build_with_inv in Hrun as (a & -> & ->).
  by repeat split.
Qed.

Lemma pipeline_record_not_reached_witness :
  build demo_sdk initial_state = (inr (demo_globals 0.75), demo_state) ∧
  script demo_sdk initial_state = (inl "AttributeError", demo_state).
Proof.
  split; [reflexivity|].
  apply (pipeline_record_not_reached demo_sdk (demo_globals 0.75) demo_state).
  reflexivity.
Defined.

(** C4 (the script departs from it): the property file "evaluation.json"
    is built and bound to the evaluation step's declared "evaluation"
    output, but reading "metrics.accuracy" from it, the gate's left
    operand, raises [AttributeError]; no operand and no gate come to
    exist. *)
Theorem gate_operand_raises (sdk : Sdk) (g : Globals) (st : State) :
  build sdk initial_state = (inr g, st) →
  g_evaluation_report g =
    {| pf_name := "EvaluationReport";
       pf_output_name := "evaluation";
       pf_path := "evaluation.json" |} ∧
  ps_property_files (g_evaluation_step g) = [g_evaluation_report g] ∧
  property_file_bound (g_evaluation_report g) (Processing (g_evaluation_step g))
  = true ∧
  PropertyFile_prop (g_evaluation_report g) "metrics.accuracy" sdk st
  = (inl "AttributeError", st) ∧
  gate_and_publish g sdk st = (inl "AttributeError", st).
Proof.
  intros Hrun. apply build_with_inv in Hrun as (a & -> & ->).
  by repeat split.
Qed.

Lemma gate_operand_raises_witness :
  build demo_sdk initial_state = (inr (demo_globals 0.75), demo_state) ∧
  gate_and_publish (demo_globals 0.75) demo_sdk demo_state
  = (inl "AttributeError", demo_state).
Proof.
  split; [reflexivity|].
  apply (gate_operand_raises demo_sdk (demo_globals 0.75) demo_state).
  reflexivity.
Defined.

(** C5 (the script departs from it): in every world the script ends with
    an exception and has made no remote-control call: neither upsert nor
    start is ever called. *)
Theorem script_never_publishes (sdk : Sdk) :
  ∃ e : Exception,
    (script sdk initial_state).1 = inl e ∧
    control_calls (calls (script sdk initial_state).2) = [].
Proof.
  unfold script. rewrite script_with_run.
  pose proof (build_no_control 0.75 sdk) as Hnone.
  destruct (build_with 0.75 sdk initial_state) as [[e|g] st]; cbn in *.
  - by exists e.
  - by exists "AttributeError".
Qed.

Example script_in_a_willing_world :
  script demo_sdk initial_state = (inl "AttributeError", demo_state) ∧
  script demo_sdk_upsert_fails initial_state = (inl "AttributeError", demo_state).
Proof. split; reflexivity. Qed.

Example script_no_credentials :
  script demo_sdk_no_credentials initial_state
  = (inl "NoCredentialsError",
     {| heap := []; calls := [CallPipelineSession] |}).
Proof. reflexivity. Qed.

(** C6 (the script departs from it): building with another default for
    AccuracyThreshold changes the parameter object and nothing else; the
    heap, the log, the input-data parameter and the three steps are the
    same.  The parameter never becomes an operand: with either default the
    script stops at line 136 in the same state. *)
Theorem threshold_reaches_no_gate (sdk : Sdk) (t1 t2 : float)
    (g1 : Globals) (st : State) :
  build_with t1 sdk initial_state = (inr g1, st) →
  ∃ g2,
    build_with t2 sdk initial_state = (inr g2, st) ∧
    g_accuracy_threshold g1 = ParameterFloat "AccuracyThreshold" t1 ∧
    g_accuracy_threshold g2 = ParameterFloat "AccuracyThreshold" t2 ∧
    g_input_data g2 = g_input_data g1 ∧
    built_steps g2 = built_steps g1 ∧
    script_with t1 sdk initial_state = (inl "AttributeError", st) ∧
    script_with t2 sdk initial_state = (inl "AttributeError", st).
Proof.
  intros Hrun. rewrite !script_with_run, Hrun.
  apply build_with_inv in Hrun as (a & -> & ->).
  eexists. rewrite (build_with_run t2 sdk a).
  by repeat split.
Qed.

Lemma threshold_reaches_no_gate_witness :
  build_with 0.75 demo_sdk initial_state
  = (inr (demo_globals 0.75), demo_state) ∧
  ∃ g2,
    build_with 0.875 demo_sdk initial_state = (inr g2, demo_state) ∧
    g_accuracy_threshold g2 = ParameterFloat "AccuracyThreshold" 0.875.
Proof.
  split; [reflexivity|].
  destruct (threshold_reaches_no_gate demo_sdk 0.75 0.875 (demo_globals 0.75)
              demo_state eq_refl) as (g2 & Hrun & _ & Ht & _).
  exists g2. by split.
Defined.

(** C10 (the script departs from it): whatever default the threshold is
    given, and whatever the environment answers, the script ends with an
    exception; the greater-than-or-equal condition of lines 135-138 is
    never constructed, so no accuracy is ever compared with the
    threshold. *)
Theorem script_with_always_raises (t : float) (sdk : Sdk) :
  ∃ (e : Exception) (st : State),
    script_with t sdk initial_state = (inl e, st) ∧
    (build_with t sdk initial_state).2 = st.
Proof.
  rewrite script_with_run.
  destruct (build_with t sdk initial_state) as [[e|g] st]; by eexists _, _.
Qed.

(** ** The step objects *)

(** C2: no reference dangles.  Every run-time value referred to by a step
    the script builds is declared by a parameter or by a step the script
    builds; the training step's "train" input is the preprocessing step's
    declared "train" output, and the evaluation step reads the training
    step's model artifacts and the preprocessing step's declared "test"
    output. *)
Theorem no_dangling (sdk : Sdk) (g : Globals) (st : State) :
  build sdk initial_state = (inr g, st) →
  no_dangling_references (built_parameters g) (built_steps g) = true ∧
  length (built_steps g ≫= references) = 4 ∧
  ts_inputs (g_training_step g) =
    [ ("train", ProcessingOutputS3Uri (ps_name (g_processing_step g)) "train") ] ∧
  "train" ∈ output_names (Processing (g_processing_step g)) ∧
  pi_source <$> ps_inputs (g_evaluation_step g) =
    [ S3ModelArtifacts (ts_name (g_training_step g));
      ProcessingOutputS3Uri (ps_name (g_processing_step g)) "test" ] ∧
  "test" ∈ output_names (Processing (g_processing_step g)) ∧
  NoDup (step_name <$> built_steps g).
Proof.
  intros Hrun. apply build_with_inv in Hrun as (a & -> & ->).
  repeat split; try reflexivity.
  - cbn. set_solver.
  - cbn. set_solver.
  - cbn. apply (bool_decide_unpack _). by vm_compute.
Qed.

Lemma no_dangling_witness :
  build demo_sdk initial_state = (inr (demo_globals 0.75), demo_state) ∧
  no_dangling_references (built_parameters (demo_globals 0.75))
                         (built_steps (demo_globals 0.75)) = true.
Proof.
  split; [reflexivity|].
  apply (no_dangling demo_sdk (demo_globals 0.75) demo_state).
  reflexivity.
Defined.

(** ** Shared configuration *)



(** C9: the storage URIs the script writes out are the default input, the
    processed train and test splits, the evaluation report destination and
    the model output path, and each starts with
    s3://{bucket}/credit-risk/. *)
Theorem storage_uris_namespaced (sdk : Sdk) (g : Globals) (st : State) :
  build sdk initial_state = (inr g, st) →
  storage_uris (heap st) (built_parameters g) (built_steps g) =
    [ project_prefix (g_bucket g) +:+ "raw/data.csv";
      project_prefix (g_bucket g) +:+ "processed/train";
      project_prefix (g_bucket g) +:+ "processed/test";
      project_prefix (g_bucket g) +:+ "evaluation";
      project_prefix (g_bucket g) +:+ "models" ] ∧
  Forall (λ uri, String.prefix (project_prefix (g_bucket g)) uri = true)
         (storage_uris (heap st) (built_parameters g) (built_steps g)).
Proof.
  intros Hrun. apply build_with_inv in Hrun as (a & -> & ->).
  cbn [heap]. rewrite (storage_uris_of 0.75).
  split; [reflexivity|].
  repeat constructor; exact (prefix_append (project_prefix (a_bucket a)) _).
Qed.

Lemma storage_uris_namespaced_witness :
  build demo_sdk initial_state = (inr (demo_globals 0.75), demo_state) ∧
  Forall (λ uri, String.prefix (project_prefix demo_bucket) uri = true)
         (storage_uris (heap demo_state) (built_parameters (demo_globals 0.75))
                       (built_steps (demo_globals 0.75))).
Proof.
  split; [reflexivity|].
  apply (storage_uris_namespaced demo_sdk (demo_globals 0.75) demo_state).
  reflexivity.
Defined.

(** ** How the script ends *)

(** X1: the script never returns.  It ends with the exception of the
    first environment call that was refused, with that call last in the
    log and nothing asked or allocated after it; or, when all five calls
    were answered, with the [AttributeError] of line 136, the processor and
    the estimator allocated and the five calls logged. *)
Theorem script_failure (t : float) (sdk : Sdk) :
  ∃ (e : Exception) (st : State),
  script_with t sdk initial_state = (inl e, st) ∧
  ((sdk_PipelineSession sdk = inl e ∧
    heap st = [] ∧ calls st = [CallPipelineSession]) ∨
   ∃ session, sdk_PipelineSession sdk = inr session ∧
   let region := boto_region_name session in
   ((sdk_get_execution_role sdk = inl e ∧
     heap st = [] ∧ calls st = take 2 (calls_of region)) ∨
    ∃ role, sdk_get_execution_role sdk = inr role ∧
    ((default_bucket session = inl e ∧
      heap st = [] ∧ calls st = take 3 (calls_of region)) ∨
     ∃ bucket, default_bucket session = inr bucket ∧
     ((sdk_image_uris_retrieve sdk "sklearn" region "1.0-1" = inl e ∧
       heap st = [] ∧ calls st = take 4 (calls_of region)) ∨
      ∃ sklearn,
        sdk_image_uris_retrieve sdk "sklearn" region "1.0-1" = inr sklearn ∧
        ((sdk_image_uris_retrieve sdk "xgboost" region "1.5-1" = inl e ∧
          heap st = [ObjScriptProcessor (processor sklearn role)] ∧
          calls st = calls_of region) ∨
         ∃ xgboost,
           sdk_image_uris_retrieve sdk "xgboost" region "1.5-1" = inr xgboost ∧
           e = "AttributeError" ∧
           heap st = heap_of role bucket sklearn xgboost ∧
           calls st = calls_of region))))).
Proof.
  rewrite script_with_run. run_step.
  destruct (sdk_PipelineSession sdk) as [e1|session];
    [eexists _, _; split; [reflexivity|]; left; by repeat split|].
  destruct (sdk_get_execution_role sdk) as [e2|role].
  { eexists _, _; split; [reflexivity|]. right. exists session.
    split; [reflexivity|]. left. by repeat split. }
  destruct (default_bucket session) as [e3|bucket] eqn:Hb.
  { eexists _, _; split; [reflexivity|]. right. exists session.
    split; [reflexivity|]. right. exists role. split; [reflexivity|].
    left. by repeat split. }
  cbn.
  destruct (sdk_image_uris_retrieve sdk "sklearn" _ "1.0-1") as [e4|sklearn]
    eqn:Hk.
  { eexists _, _; split; [reflexivity|]. right. exists session.
    split; [reflexivity|]. right. exists role. split; [reflexivity|].
    right. exists bucket. split; [exact Hb|]. left. by repeat split. }
  cbn.
  destruct (sdk_image_uris_retrieve sdk "xgboost" _ "1.5-1") as [e5|xgboost]
    eqn:Hx.
  { eexists _, _; split; [reflexivity|]. right. exists session.
    split; [reflexivity|]. right. exists role. split; [reflexivity|].
    right. exists bucket. split; [exact Hb|]. right. exists sklearn.
    split; [exact Hk|]. left. by repeat split. }
  eexists _, _; split; [reflexivity|]. right. exists session.
  split; [reflexivity|]. right. exists role. split; [reflexivity|].
  right. exists bucket. split; [exact Hb|]. right. exists sklearn.
  split; [exact Hk|]. right. exists xgboost. by repeat split.
Qed.

Example script_refused_xgboost :
  script demo_sdk_no_xgboost initial_state
  = (inl "ValueError",
     {| heap := [ObjScriptProcessor (processor "sklearn:1.0-1@us-east-1" demo_role)];
        calls := calls_of demo_region |}).
Proof. reflexivity. Qed.

(** ** Objects behind the steps *)

(** X2: both image lookups are made for the session's region, and the
    images the two compute objects run are what those lookups answered. *)
Theorem images_follow_session_region (sdk : Sdk) (g : Globals) (st : State) :
  build sdk initial_state = (inr g, st) →
  ∃ session sklearn xgboost,
    sdk_PipelineSession sdk = inr session ∧
    g_region g = boto_region_name session ∧
    sdk_image_uris_retrieve sdk "sklearn" (g_region g) "1.0-1" = inr sklearn ∧
    sdk_image_uris_retrieve sdk "xgboost" (g_region g) "1.5-1" = inr xgboost ∧
    object_image_uri <$> heap st = [sklearn; xgboost] ∧
    ∀ framework region version,
      CallImageUrisRetrieve framework region version ∈ calls st →
      region = g_region g.
Proof.
  intros Hrun. apply build_with_inv in Hrun as (a & -> & ->).
  exists (a_session a), (a_sklearn a), (a_xgboost a).
  split; [apply a_session_ok|]. split; [reflexivity|].
  split; [apply a_sklearn_ok|]. split; [apply a_xgboost_ok|].
  split; [reflexivity|].
  intros framework region version Hin. cbn in Hin.
  unfold calls_of in Hin. rewrite !elem_of_cons, elem_of_nil in Hin.
  destruct Hin as [?|[?|[?|[?|[?|[]]]]]]; by simplify_eq.
Qed.

Lemma images_follow_session_region_witness :
  build demo_sdk initial_state = (inr (demo_globals 0.75), demo_state) ∧
  ∃ sklearn xgboost, object_image_uri <$> heap demo_state = [sklearn; xgboost].
Proof.
  split; [reflexivity|].
  destruct (images_follow_session_region demo_sdk (demo_globals 0.75)
              demo_state eq_refl)
    as (session & sklearn & xgboost & _ & _ & _ & _ & H & _).
  by exists sklearn, xgboost.
Defined.

(** X3: one estimator object is allocated, a single ml.m5.large instance;
    the training step holds the reference to it and is the only step built
    that does.  The hyperparameters set after the estimator was built are
    on that object: objective, num_round, max_depth and eta, and no other
    key. *)
Theorem estimator_configured (sdk : Sdk) (g : Globals) (st : State) :
  build sdk initial_state = (inr g, st) →
  ∃ e,
    heap st !! g_estimator g = Some (ObjEstimator e) ∧
    List.filter (λ o, negb (is_processor o)) (heap st) = [ObjEstimator e] ∧
    ts_estimator (g_training_step g) = g_estimator g ∧
    estimator_users (g_estimator g) (built_steps g) =
      [ Training (g_training_step g) ] ∧
    est_instance_count e = 1%Z ∧
    est_instance_type e = "ml.m5.large" ∧
    est_hyperparameters e !! "objective" = Some (HStr "binary:logistic") ∧
    est_hyperparameters e !! "num_round" = Some (HInt 200) ∧
    est_hyperparameters e !! "max_depth" = Some (HInt 5) ∧
    est_hyperparameters e !! "eta" = Some (HFloat 0x1.999999999999ap-3) ∧
    size (est_hyperparameters e) = 4.
Proof.
  intros Hrun. apply build_with_inv in Hrun as (a & -> & ->).
  eexists. split; [reflexivity|].
  repeat split; try reflexivity; by vm_compute.
Qed.

Lemma estimator_configured_witness :
  build demo_sdk initial_state = (inr (demo_globals 0.75), demo_state) ∧
  ∃ e, heap demo_state !! 1 = Some (ObjEstimator e) ∧
       size (est_hyperparameters e) = 4.
Proof.
  split; [reflexivity|].
  destruct (estimator_configured demo_sdk (demo_globals 0.75) demo_state eq_refl)
    as (e & H & _ & _ & _ & _ & _ & _ & _ & _ & _ & Hsize).
  by exists e.
Defined.

(** X4: every step built has its [processor=] referring to a processor
    object on the heap, or its [estimator=] to an estimator object. *)
Theorem references_well_typed (sdk : Sdk) (g : Globals) (st : State) :
  build sdk initial_state = (inr g, st) →
  Forall (λ s, ref_ok (heap st) s = true) (built_steps g) ∧
  length (built_steps g) = 3.
Proof.
  intros Hrun. apply build_with_inv in Hrun as (a & -> & ->).
  split; [|reflexivity]. cbn. repeat constructor.
Qed.

Lemma references_well_typed_witness :
  build demo_sdk initial_state = (inr (demo_globals 0.75), demo_state) ∧
  Forall (λ s, ref_ok (heap demo_state) s = true)
         (built_steps (demo_globals 0.75)).
Proof.
  split; [reflexivity|].
  apply (references_well_typed demo_sdk (demo_globals 0.75) demo_state).
  reflexivity.
Defined.

(** X5: one role, one instance shape.  The role the environment returned
    is the role of both compute objects, and each is a single ml.m5.large
    instance. *)
Theorem one_role_one_shape (sdk : Sdk) (g : Globals) (st : State) :
  build sdk initial_state = (inr g, st) →
  sdk_get_execution_role sdk = inr (g_role g) ∧
  length (heap st) = 2 ∧
  Forall (λ o, object_role o = g_role g ∧
               object_instance_type o = "ml.m5.large" ∧
               object_instance_count o = 1%Z) (heap st).
Proof.
  intros Hrun. apply build_with_inv in Hrun as (a & -> & ->).
  split; [apply a_role_ok|]. split; [reflexivity|]. by repeat constructor.
Qed.

Lemma one_role_one_shape_witness :
  build demo_sdk initial_state = (inr (demo_globals 0.75), demo_state) ∧
  Forall (λ o, object_role o = demo_role) (heap demo_state).
Proof.
  split; [reflexivity|].
  eapply Forall_impl;
    [apply (one_role_one_shape demo_sdk (demo_globals 0.75) demo_state);
     reflexivity|].
  by intros o (H & _).
Defined.

(** ** Paths and destinations *)

(** X7: inside the container, every output is collected from
    /opt/ml/processing/<output name>, and within a step no two channels
    (inputs or outputs) use the same path and no two outputs the same
    name. *)
Theorem container_paths_wired (sdk : Sdk) (g : Globals) (st : State) :
  build sdk initial_state = (inr g, st) →
  Forall (λ s,
    Forall (λ o, po_source o = "/opt/ml/processing/" +:+ po_output_name o)
           (outputs_of s) ∧
    NoDup (input_paths s ++ output_paths s) ∧
    NoDup (output_names s)) (built_steps g) ∧
  length <$> (outputs_of <$> built_steps g) = [2; 0; 1] ∧
  length <$> (input_paths <$> built_steps g) = [1; 0; 2].
Proof.
  intros Hrun. apply build_with_inv in Hrun as (a & -> & ->).
  split; [|by split]. cbn.
  repeat (apply Forall_cons; split); try apply Forall_nil;
    repeat split; try apply Forall_nil; try reflexivity;
    apply (bool_decide_unpack _); by vm_compute.
Qed.

Lemma container_paths_wired_witness :
  build demo_sdk initial_state = (inr (demo_globals 0.75), demo_state) ∧
  Forall (λ s, NoDup (input_paths s ++ output_paths s))
         (built_steps (demo_globals 0.75)).
Proof.
  split; [reflexivity|].
  eapply Forall_impl;
    [apply (container_paths_wired demo_sdk (demo_globals 0.75) demo_state);
     reflexivity|].
  by intros s (_ & H & _).
Defined.



(** ** Order of the steps *)



(** ** Setting hyperparameters *)

Lemma foldl_insert_other (kwargs : list (string * HyperValue))
    (m : gmap string HyperValue) (k : string) :
  k ∉ kwargs.*1 →
  foldl (λ m kv, <[kv.1 := kv.2]> m) m kwargs !! k = m !! k.
Proof.
  revert m. induction kwargs as [|[k0 v0] rest IH]; intros m Hk; [done|].
  cbn in *. apply not_elem_of_cons in Hk as [Hne Hrest].
  rewrite IH by done. by rewrite lookup_insert_ne.
Qed.

Lemma foldl_insert_given (kwargs : list (string * HyperValue))
    (m : gmap string HyperValue) (k : string) (v : HyperValue) :
  NoDup kwargs.*1 → (k, v) ∈ kwargs →
  foldl (λ m kv, <[kv.1 := kv.2]> m) m kwargs !! k = Some v.
Proof.
  revert m. induction kwargs as [|[k0 v0] rest IH]; intros m Hnd Hin.
  - by apply elem_of_nil in Hin.
  - cbn in *. apply NoDup_cons in Hnd as [Hfresh Hnd].
    apply elem_of_cons in Hin as [[= -> ->]|Hin].
    + rewrite foldl_insert_other by done. by rewrite lookup_insert_eq.
    + by apply IH.
Qed.

(** X10: [set_hyperparameters] changes one object and nothing else.  When
    it returns, the reference held an estimator; the heap differs only at
    that reference; the log is untouched; of the estimator only the
    hyperparameters differ, where each given key has the given value and
    every other key keeps the value it had. *)
Theorem set_hyperparameters_effect (r : Ref)
    (kwargs : list (string * HyperValue)) (sdk : Sdk) (st st' : State) :
  set_hyperparameters r kwargs sdk st = (inr (), st') →
  NoDup kwargs.*1 →
  ∃ e e',
    heap st !! r = Some (ObjEstimator e) ∧
    heap st' !! r = Some (ObjEstimator e') ∧
    (∀ r', r' ≠ r → heap st' !! r' = heap st !! r') ∧
    length (heap st') = length (heap st) ∧
    calls st' = calls st ∧
    (est_image_uri e', est_role e', est_instance_count e',
     est_instance_type e', est_output_path e')
    = (est_image_uri e, est_role e, est_instance_count e,
       est_instance_type e, est_output_path e) ∧
    (∀ k v, (k, v) ∈ kwargs → est_hyperparameters e' !! k = Some v) ∧
    (∀ k, k ∉ kwargs.*1 →
          est_hyperparameters e' !! k = est_hyperparameters e !! k).
Proof.
  unfold set_hyperparameters. intros Hrun Hnd.
  destruct (heap st !! r) as [[p|e]|] eqn:Hr; try discriminate.
  injection Hrun as <-. exists e, (update_hyperparameters kwargs e).
  cbn [heap calls]. split; [reflexivity|].
  split; [apply list_lookup_insert_eq; by eapply lookup_lt_Some|].
  split; [intros r' Hne; by apply list_lookup_insert_ne|].
  split; [apply length_insert|]. split; [reflexivity|].
  split; [reflexivity|]. split.
  - intros k v Hin. by apply foldl_insert_given.
  - intros k Hk. by apply foldl_insert_other.
Qed.

Lemma set_hyperparameters_effect_witness :
  let kwargs := [("eta", HFloat 0.5)] in
  let st' := (set_hyperparameters 1 kwargs demo_sdk demo_state).2 in
  set_hyperparameters 1 kwargs demo_sdk demo_state = (inr (), st') ∧
  NoDup kwargs.*1 ∧
  ∃ e e' : Estimator,
    heap st' !! 1 = Some (ObjEstimator e') ∧
    est_hyperparameters e' !! "eta" = Some (HFloat 0.5) ∧
    est_hyperparameters e' !! "max_depth" = est_hyperparameters e !! "max_depth".
Proof.
  cbv zeta.
  assert (NoDup [("eta", HFloat 0.5)].*1) as Hnd
    by (apply (bool_decide_unpack _); by vm_compute).
  split; [reflexivity|]. split; [exact Hnd|].
  destruct (set_hyperparameters_effect 1 [("eta", HFloat 0.5)] demo_sdk
              demo_state
              (set_hyperparameters 1 [("eta", HFloat 0.5)] demo_sdk demo_state).2
              eq_refl Hnd)
    as (e & e' & _ & Hnew & _ & _ & _ & _ & Hgiven & Hother).
  exists e, e'. split; [exact Hnew|]. split.
  - apply Hgiven, list_elem_of_singleton. reflexivity.
  - apply Hother. cbn. rewrite list_elem_of_singleton. discriminate.
Defined.

(** It raises, and changes nothing, on anything but an estimator. *)
Example set_hyperparameters_on_processor :
  set_hyperparameters 0 hyperparameters demo_sdk demo_state
  = (inl "AttributeError", demo_state).
Proof. reflexivity. Qed.
